(** * docker-connector: a shallow embedding of src/main.go

    The program talks to three outside parties: the ECS control plane
    (ListTasks, DescribeTasks, DescribeContainerInstances), the STS
    identity service and the `aws ssm start-session` subprocess.  It also
    draws random indices with [rand.Seed(time.Now().UnixNano());
    rand.Intn(n)].  All of these are answered by a [World]: an oracle that
    may answer differently at every call, indexed by the position of the
    call in the run.  The program runs in a state monad whose state is the
    trace of the calls it has made, each with the answer it received, so
    that a call's index is the length of the trace before it.

    A Go [error] result of an SDK call is the [None] answer; a Go [error]
    value built by [fmt.Errorf] is an [Err]; [log.Fatalf] ends the run with
    an [Outcome]. *)

From Stdlib Require Import String Ascii List Bool Arith Lia.
Import ListNotations.
Open Scope string_scope.

(** ** Data returned by the control plane *)

(** A container of a described task ([types.Container]): the two fields
    the program dereferences, [*container.Name] and [*container.RuntimeId]. *)
Record Container := mkContainer {
  cName : string;
  cRuntimeId : string
}.

(** A described task ([types.Task]): [*ContainerInstanceArn] and
    [Containers]. *)
Record Task := mkTask {
  tContainerInstanceArn : string;
  tContainers : list Container
}.

(** A described container instance ([types.ContainerInstance]):
    [*Ec2InstanceId]. *)
Record ContainerInstance := mkContainerInstance {
  ciEc2InstanceId : string
}.

(** ** The outside world *)

(** Every answer is indexed by the call's position in the run.  [None]
    stands for a non-nil Go [err]; [w_intn] is [rand.Intn] after the
    per-call reseed, with the library's contract that it answers in
    [[0, n)]. *)
Record World := mkWorld {
  w_loadConfig : nat -> option string -> string -> bool;
  w_getCallerIdentity : nat -> bool;
  w_listTasks : nat -> string -> string -> option (list string);
  w_describeTasks : nat -> string -> list string -> option (list Task);
  w_describeContainerInstances :
    nat -> string -> list string -> option (list ContainerInstance);
  w_intn : nat -> nat -> nat;
  w_intn_lt : forall k n, 0 < n -> w_intn k n < n;
  w_run : nat -> list string -> bool
}.

(** One call with its answer. *)
Inductive Event :=
| ELoadConfig (profile : option string) (region : string) (ok : bool)
| EGetCallerIdentity (ok : bool)
| EListTasks (cluster service : string) (r : option (list string))
| EDescribeTasks (cluster : string) (tasks : list string)
    (r : option (list Task))
| EDescribeContainerInstances (cluster : string) (cis : list string)
    (r : option (list ContainerInstance))
| ERandIntn (n k : nat)
| ERun (argv : list string) (ok : bool)
| ESleep (seconds : nat).

(** The errors built with [fmt.Errorf], one constructor per message. *)
Inductive Err :=
| ErrNoRunningTasks (service : string)
    (* "no running tasks found for service %s" *)
| ErrDescribeTask
    (* "could not describe the ECS task" *)
| ErrDescribeContainerInstance
    (* "could not describe container instance" *)
| ErrNoContainerInstances (cluster : string)
    (* "no container instances found for cluster %s" *)
| ErrNoContainer (container : string)
    (* "no container named %s found in task" *)
| ErrRun
    (* the error of [cmd.Run()] *).

(** Go's [(value, error)] pair. *)
Inductive result (A : Type) :=
| Ok (a : A)
| Error (e : Err).
Arguments Ok {A} a.
Arguments Error {A} e.

(** The [log.Fatal]/[log.Fatalf] sites of [main]. *)
Inductive FatalMsg :=
| FUsage
| FLoadConfig
| FAuth
| FTask (e : Err)
| FInstance (e : Err)
| FContainer (e : Err)
| FSession (attempts : nat).

(** How the process ends: exit status 0, or [log.Fatal] (exit status 1). *)
Inductive Outcome :=
| Exit0
| Fatal (m : FatalMsg).

(** ** The trace monad *)

Definition M (A : Type) : Type := list Event -> A * list Event.

Definition ret {A} (a : A) : M A := fun tr => (a, tr).

Definition bind {A B} (m : M A) (f : A -> M B) : M B :=
  fun tr => let (a, tr') := m tr in f a tr'.

Notation "x <- m ;; k" := (bind m (fun x => k))
  (at level 61, m at next level, right associativity).
Notation "m ;;; k" := (bind m (fun _ => k))
  (at level 61, right associativity).

Definition dq : string := String "034"%char EmptyString.

(** [fmt.Sprintf(`{"command":["sudo docker exec -it %s bash"]}`, id)] *)
Definition ssm_parameters (containerID : string) : string :=
  "{" ++ dq ++ "command" ++ dq ++ ":[" ++ dq ++ "sudo docker exec -it "
  ++ containerID ++ " bash" ++ dq ++ "]}".

(** [for _, container := range containers { if *container.Name == name
    { return *container.RuntimeId, nil } }] *)
Fixpoint find_container (containerName : string) (cs : list Container)
  : option string :=
  match cs with
  | [] => None
  | c :: rest =>
      if String.eqb (cName c) containerName then Some (cRuntimeId c)
      else find_container containerName rest
  end.

Definition maxRetries : nat := 3.
Definition backoffDelay : nat := 5.
Definition region : string := "eu-west-2".

(** The command-line flags, as [flag.String] leaves them (default ""). *)
Record Flags := mkFlags {
  clusterName : string;
  serviceName : string;
  containerName : string;
  profile : string
}.

(** What one pass of the [for] body ends with: [break] after a
    successful session, a [log.Fatalf], or the next iteration (after
    [continue] or at the end of the body). *)
Inductive AttemptResult :=
| ASuccess
| AFatal (m : FatalMsg)
| AContinue.

Inductive LoopResult :=
| LSuccess
| LFatal (m : FatalMsg)
| LDone.

Section Program.

Variable w : World.

(** *** Primitive calls *)

Definition loadConfig (p : option string) (rg : string) : M bool :=
  fun tr => let r := w_loadConfig w (length tr) p rg in
            (r, app tr [ELoadConfig p rg r]).

Definition getCallerIdentity : M bool :=
  fun tr => let r := w_getCallerIdentity w (length tr) in
            (r, app tr [EGetCallerIdentity r]).

Definition listTasks (cluster service : string) : M (option (list string)) :=
  fun tr => let r := w_listTasks w (length tr) cluster service in
            (r, app tr [EListTasks cluster service r]).

Definition describeTasks (cluster : string) (tasks : list string)
  : M (option (list Task)) :=
  fun tr => let r := w_describeTasks w (length tr) cluster tasks in
            (r, app tr [EDescribeTasks cluster tasks r]).

Definition describeContainerInstances (cluster : string) (cis : list string)
  : M (option (list ContainerInstance)) :=
  fun tr => let r := w_describeContainerInstances w (length tr) cluster cis in
            (r, app tr [EDescribeContainerInstances cluster cis r]).

(** [rand.Seed(time.Now().UnixNano()); rand.Intn(n)] *)
Definition randIntn (n : nat) : M nat :=
  fun tr => let k := w_intn w (length tr) n in
            (k, app tr [ERandIntn n k]).

(** [cmd.Run()] with stdio passed through; [true] when it returns nil. *)
Definition run (argv : list string) : M bool :=
  fun tr => let r := w_run w (length tr) argv in
            (r, app tr [ERun argv r]).

Definition sleep (seconds : nat) : M unit :=
  fun tr => (tt, app tr [ESleep seconds]).

(** *** The resolvers *)

Definition getECSTask (cluster service : string)
  : M (result (string * string)) :=
  result <- listTasks cluster service ;;
  match result with
  | None | Some [] => ret (Error (ErrNoRunningTasks service))
  | Some taskArns =>
      if Nat.eqb (length taskArns) 0
      then ret (Error (ErrNoRunningTasks service))
      else
        k <- randIntn (length taskArns) ;;
        let taskArn := nth k taskArns "" in
        describeResult <- describeTasks cluster [taskArn] ;;
        match describeResult with
        | None | Some [] => ret (Error ErrDescribeTask)
        | Some (t :: _) => ret (Ok (taskArn, tContainerInstanceArn t))
        end
  end.

Definition getEC2InstanceID (cluster containerInstanceArn : string)
  : M (result string) :=
  result <- describeContainerInstances cluster [containerInstanceArn] ;;
  match result with
  | None | Some [] => ret (Error ErrDescribeContainerInstance)
  | Some insts =>
      if Nat.eqb (length insts) 0
      then ret (Error (ErrNoContainerInstances cluster))
      else
        k <- randIntn (length insts) ;;
        let selectedInstance := nth k insts (mkContainerInstance "") in
        ret (Ok (ciEc2InstanceId selectedInstance))
  end.

Definition getContainerID (cluster taskArn containerName : string)
  : M (result string) :=
  describeResult <- describeTasks cluster [taskArn] ;;
  match describeResult with
  | None | Some [] => ret (Error ErrDescribeTask)
  | Some (t :: _) =>
      match find_container containerName (tContainers t) with
      | Some rid => ret (Ok rid)
      | None => ret (Error (ErrNoContainer containerName))
      end
  end.

(** *** The session launcher *)

(** The argument vector [ssmCmd] built by [startSSMSession]; the
    [profile] parameter is a Go [*string], [None] being [nil]. *)
Definition ssmCmd (instanceID containerID : string) (p : option string)
    (rg : string) : list string :=
  ["aws"; "ssm"; "start-session";
   "--target"; instanceID;
   "--document-name"; "AWS-StartInteractiveCommand";
   "--parameters"; ssm_parameters containerID;
   "--region"; rg]
  ++ match p with
     | Some s => ["--profile"; s]
     | None => []
     end.

Definition startSSMSession (instanceID containerID : string)
    (p : option string) (rg : string) : M (result unit) :=
  ok <- run (ssmCmd instanceID containerID p rg) ;;
  ret (if ok then Ok tt else Error ErrRun).

(** *** The retry loop of [main] *)

(** One pass of the [for] body with loop counter [i].  [main] passes
    [profile], the pointer returned by [flag.String], which is never nil. *)
Definition attempt (fl : Flags) (i : nat) : M AttemptResult :=
  r1 <- getECSTask (clusterName fl) (serviceName fl) ;;
  match r1 with
  | Error e =>
      if Nat.eqb i (maxRetries - 1) then ret (AFatal (FTask e))
      else sleep backoffDelay ;;; ret AContinue
  | Ok (taskArn, containerInstanceArn) =>
      r2 <- getEC2InstanceID (clusterName fl) containerInstanceArn ;;
      match r2 with
      | Error e =>
          if Nat.eqb i (maxRetries - 1) then ret (AFatal (FInstance e))
          else sleep backoffDelay ;;; ret AContinue
      | Ok instanceID =>
          r3 <- getContainerID (clusterName fl) taskArn (containerName fl) ;;
          match r3 with
          | Error e =>
              if Nat.eqb i (maxRetries - 1) then ret (AFatal (FContainer e))
              else sleep backoffDelay ;;; ret AContinue
          | Ok containerID =>
              r4 <- startSSMSession instanceID containerID
                      (Some (profile fl)) region ;;
              match r4 with
              | Ok _ => ret ASuccess
              | Error _ =>
                  if Nat.ltb i (maxRetries - 1)
                  then sleep backoffDelay ;;; ret AContinue
                  else ret AContinue
              end
          end
      end
  end.

(** [for i := 0; i < maxRetries; i++ { ... }], [n] iterations left. *)
Fixpoint for_loop (fl : Flags) (n i : nat) : M LoopResult :=
  match n with
  | O => ret LDone
  | S n' =>
      r <- attempt fl i ;;
      match r with
      | ASuccess => ret LSuccess
      | AFatal m => ret (LFatal m)
      | AContinue => for_loop fl n' (S i)
      end
  end.

(** [if !retrySuccess { log.Fatalf(...) }] after the loop. *)
Definition finish (r : LoopResult) : Outcome :=
  match r with
  | LSuccess => Exit0
  | LFatal m => Fatal m
  | LDone => Fatal (FSession maxRetries)
  end.

Definition main (fl : Flags) : M Outcome :=
  if String.eqb (serviceName fl) "" || String.eqb (containerName fl) ""
  then ret (Fatal FUsage)
  else
    cfgOk <- loadConfig
               (if String.eqb (profile fl) "" then None else Some (profile fl))
               region ;;
    if negb cfgOk then ret (Fatal FLoadConfig)
    else
      authOk <- getCallerIdentity ;;
      if negb authOk then ret (Fatal FAuth)
      else
        r <- for_loop fl maxRetries 0 ;;
        ret (finish r).

End Program.

(** ** The earlier single-attempt program (src/unnamed/part_000)

    The repository keeps two earlier copies of [main.go] that differ only
    in comments and in the usage text: no retry loop, no credential check,
    the first listed task and the first described instance instead of a
    random one, and the session parameters in [command="..."] form. *)
Module Legacy.

(** The [log.Fatal]/[log.Fatalf] sites of the earlier [main]. *)
Inductive OldFatalMsg :=
| OldUsage
| OldLoadConfig
| OldTask (e : Err)
| OldInstance (e : Err)
| OldContainer (e : Err)
| OldSession.

Inductive OldOutcome :=
| OldExit0
| OldFatal (m : OldFatalMsg).

Section LegacyProgram.

Variable w : World.

(** [taskArn := result.TaskArns[0]] *)
Definition getECSTask (cluster service : string)
  : M (result (string * string)) :=
  result <- listTasks w cluster service ;;
  match result with
  | None | Some [] => ret (Error (ErrNoRunningTasks service))
  | Some (taskArn :: _) =>
      describeResult <- describeTasks w cluster [taskArn] ;;
      match describeResult with
      | None | Some [] => ret (Error ErrDescribeTask)
      | Some (t :: _) => ret (Ok (taskArn, tContainerInstanceArn t))
      end
  end.

(** [return *result.ContainerInstances[0].Ec2InstanceId, nil] *)
Definition getEC2InstanceID (cluster containerInstanceArn : string)
  : M (result string) :=
  result <- describeContainerInstances w cluster [containerInstanceArn] ;;
  match result with
  | None | Some [] => ret (Error ErrDescribeContainerInstance)
  | Some (inst :: _) => ret (Ok (ciEc2InstanceId inst))
  end.

(** The [fmt.Sprintf] of part_000: [command=], then the docker command
    [sudo docker exec -it %s bash] between double quotes. *)
Definition ssm_parameters (containerID : string) : string :=
  "command=" ++ dq ++ "sudo docker exec -it " ++ containerID ++ " bash" ++ dq.

Definition ssmCmd (instanceID containerID : string) (p : option string)
    (rg : string) : list string :=
  ["aws"; "ssm"; "start-session";
   "--target"; instanceID;
   "--document-name"; "AWS-StartInteractiveCommand";
   "--parameters"; ssm_parameters containerID;
   "--region"; rg]
  ++ match p with
     | Some s => ["--profile"; s]
     | None => []
     end.

Definition startSSMSession (instanceID containerID : string)
    (p : option string) (rg : string) : M (result unit) :=
  ok <- run w (ssmCmd instanceID containerID p rg) ;;
  ret (if ok then Ok tt else Error ErrRun).

(** [getContainerID] is the same function as in [main.go]. *)
Definition main (fl : Flags) : M OldOutcome :=
  if String.eqb (serviceName fl) "" || String.eqb (containerName fl) ""
  then ret (OldFatal OldUsage)
  else
    cfgOk <- loadConfig w
               (if String.eqb (profile fl) "" then None else Some (profile fl))
               region ;;
    if negb cfgOk then ret (OldFatal OldLoadConfig)
    else
      r1 <- getECSTask (clusterName fl) (serviceName fl) ;;
      match r1 with
      | Error e => ret (OldFatal (OldTask e))
      | Ok (taskArn, containerInstanceArn) =>
          r2 <- getEC2InstanceID (clusterName fl) containerInstanceArn ;;
          match r2 with
          | Error e => ret (OldFatal (OldInstance e))
          | Ok instanceID =>
              r3 <- getContainerID w (clusterName fl) taskArn
                      (containerName fl) ;;
              match r3 with
              | Error e => ret (OldFatal (OldContainer e))
              | Ok containerID =>
                  r4 <- startSSMSession instanceID containerID
                          (Some (profile fl)) region ;;
                  match r4 with
                  | Ok _ => ret OldExit0
                  | Error _ => ret (OldFatal OldSession)
                  end
              end
          end
      end.

End LegacyProgram.

End Legacy.

(** ** Concrete worlds *)

(** A world whose oracle answers every call the same way. *)
Definition const_world (cfg auth : bool) (tasks : option (list string))
    (described : option (list Task))
    (instances : option (list ContainerInstance)) (runOk : bool) : World :=
  {| w_loadConfig := fun _ _ _ => cfg;
     w_getCallerIdentity := fun _ => auth;
     w_listTasks := fun _ _ _ => tasks;
     w_describeTasks := fun _ _ _ => described;
     w_describeContainerInstances := fun _ _ _ => instances;
     w_intn := fun _ _ => 0;
     w_intn_lt := fun _ n H => H;
     w_run := fun _ _ => runOk |}.

(** The spec's example: task T1 on host reference H1, instance I1, and
    containers app/rt-123 and sidecar/rt-456. *)
Definition example_task : Task :=
  mkTask "H1" [mkContainer "app" "rt-123"; mkContainer "sidecar" "rt-456"].

Definition example_world (runOk : bool) : World :=
  const_world true true (Some ["T1"]) (Some [example_task])
    (Some [mkContainerInstance "I1"]) runOk.

Definition example_flags (container : string) : Flags :=
  mkFlags "prod" "web" container "".

(** A world in the spec's example whose ListTasks answers [early] before
    call [cut], and whose session launches fail before call [runFrom]. *)
Definition flaky_world (cut : nat) (early : option (list string))
    (runFrom : nat) : World :=
  {| w_loadConfig := fun _ _ _ => true;
     w_getCallerIdentity := fun _ => true;
     w_listTasks := fun k _ _ => if Nat.ltb k cut then early else Some ["T1"];
     w_describeTasks := fun _ _ _ => Some [example_task];
     w_describeContainerInstances := fun _ _ _ => Some [mkContainerInstance "I1"];
     w_intn := fun _ _ => 0;
     w_intn_lt := fun _ n H => H;
     w_run := fun k _ => Nat.leb runFrom k |}.

(** ** Observations on traces *)

Open Scope list_scope.

(** Number of attempts: every pass of the loop body starts with ListTasks. *)
Fixpoint count_attempts (tr : list Event) : nat :=
  match tr with
  | [] => 0
  | EListTasks _ _ _ :: rest => S (count_attempts rest)
  | _ :: rest => count_attempts rest
  end.

Fixpoint count_sleeps (tr : list Event) : nat :=
  match tr with
  | [] => 0
  | ESleep _ :: rest => S (count_sleeps rest)
  | _ :: rest => count_sleeps rest
  end.

(** Some session launch exited successfully. *)
Fixpoint launched (tr : list Event) : bool :=
  match tr with
  | [] => false
  | ERun _ true :: _ => true
  | _ :: rest => launched rest
  end.

(** Number of session launches, successful or not. *)
Fixpoint count_runs (tr : list Event) : nat :=
  match tr with
  | [] => 0
  | ERun _ _ :: rest => S (count_runs rest)
  | _ :: rest => count_runs rest
  end.

(** Number of [rand.Intn] draws. *)
Fixpoint count_draws (tr : list Event) : nat :=
  match tr with
  | [] => 0
  | ERandIntn _ _ :: rest => S (count_draws rest)
  | _ :: rest => count_draws rest
  end.

(** Number of STS GetCallerIdentity calls. *)
Fixpoint count_identity_checks (tr : list Event) : nat :=
  match tr with
  | [] => 0
  | EGetCallerIdentity _ :: rest => S (count_identity_checks rest)
  | _ :: rest => count_identity_checks rest
  end.

(** Every sleep lasts the fixed backoff. *)
Definition sleeps_are_backoff (tr : list Event) : Prop :=
  forall s, In (ESleep s) tr -> s = backoffDelay.

(** The shape of one pass of the loop body, for [i < maxRetries]: it
    starts with ListTasks, lists no other task, and sleeps once at its end
    exactly when it goes on to the next iteration and [i < maxRetries - 1]. *)
Definition attempt_shape (fl : Flags) (i : nat) (r : AttemptResult)
    (new : list Event) : Prop :=
  (exists res rest, new = EListTasks (clusterName fl) (serviceName fl) res
                          :: rest)
  /\ count_attempts new = 1
  /\ sleeps_are_backoff new
  /\ match r with
     | ASuccess => launched new = true /\ count_sleeps new = 0
     | AFatal _ =>
         i = maxRetries - 1 /\ launched new = false /\ count_sleeps new = 0
     | AContinue =>
         launched new = false
         /\ count_sleeps new = (if Nat.eqb i (maxRetries - 1) then 0 else 1)
     end.

(** A stretch of trace with no ListTasks, no sleep and no successful
    session. *)
Definition quiet (new : list Event) : Prop :=
  count_attempts new = 0 /\ count_sleeps new = 0 /\ launched new = false.

(** ** Locality: a computation that only reads answers given from its
    starting point on *)

(** Two worlds answer alike at every call index from [n] on. *)
Definition agree_from (n : nat) (w1 w2 : World) : Prop :=
  forall k, n <= k ->
    (forall p rg, w_loadConfig w1 k p rg = w_loadConfig w2 k p rg)
    /\ w_getCallerIdentity w1 k = w_getCallerIdentity w2 k
    /\ (forall c s, w_listTasks w1 k c s = w_listTasks w2 k c s)
    /\ (forall c ts, w_describeTasks w1 k c ts = w_describeTasks w2 k c ts)
    /\ (forall c cis, w_describeContainerInstances w1 k c cis
                      = w_describeContainerInstances w2 k c cis)
    /\ (forall m, w_intn w1 k m = w_intn w2 k m)
    /\ (forall argv, w_run w1 k argv = w_run w2 k argv).

(** [m] started after two histories of the same length, in two worlds that
    agree from there on, returns the same value and appends the same
    events: it uses nothing from before its start. *)
Definition local {A} (m : World -> M A) : Prop :=
  forall w1 w2 tr1 tr2,
    length tr1 = length tr2 -> agree_from (length tr1) w1 w2 ->
    exists a new, m w1 tr1 = (a, tr1 ++ new) /\ m w2 tr2 = (a, tr2 ++ new).

Example example_app_exit0 :
  fst (main (example_world true) (example_flags "app") []) = Exit0.
Proof. reflexivity. Qed.

Example example_missing_fatal :
  fst (main (example_world true) (example_flags "missing") [])
  = Fatal (FContainer (ErrNoContainer "missing")).
Proof. reflexivity. Qed.

(** ** Examples and trace lemmas *)

Lemma count_attempts_app : forall l1 l2,
  count_attempts (l1 ++ l2) = count_attempts l1 + count_attempts l2.
Proof.
  induction l1 as [|e l1 IH]; intros l2; [reflexivity|].
  destruct e; simpl; rewrite ?IH; reflexivity.
Qed.

Lemma count_sleeps_app : forall l1 l2,
  count_sleeps (l1 ++ l2) = count_sleeps l1 + count_sleeps l2.
Proof.
  induction l1 as [|e l1 IH]; intros l2; [reflexivity|].
  destruct e; simpl; rewrite ?IH; reflexivity.
Qed.

Lemma launched_app : forall l1 l2,
  launched (l1 ++ l2) = launched l1 || launched l2.
Proof.
  induction l1 as [|e l1 IH]; intros l2; [reflexivity|].
  destruct e as [| | | | | |argv [|]|]; simpl; rewrite ?IH; reflexivity.
Qed.

Lemma count_sleeps_nil_notin : forall l s,
  count_sleeps l = 0 -> ~ In (ESleep s) l.
Proof.
  induction l as [|e l IH]; intros s H Hin; [exact Hin|].
  destruct Hin as [He | Hin]; [subst e; discriminate|].
  destruct e; simpl in H; try discriminate; exact (IH s H Hin).
Qed.

Ltac split_answers :=
  repeat match goal with
  | |- context [match ?x with _ => _ end] =>
      lazymatch x with
      | (_, _) => fail
      | _ => destruct x eqn:?
      end
  end.

Ltac unfold_calls :=
  unfold getECSTask, getEC2InstanceID, getContainerID, startSSMSession,
    listTasks, describeTasks, describeContainerInstances, randIntn, run,
    sleep, bind, ret.

Lemma getECSTask_frame : forall w c s tr,
  exists r rest, snd (getECSTask w c s tr) = tr ++ EListTasks c s r :: rest
                 /\ quiet rest.
Proof.
  intros w c s tr. unfold_calls. cbn.
  destruct (w_listTasks w (length tr) c s) as [[|a l]|] eqn:E; cbn;
    [| split_answers; cbn |];
    do 2 eexists; (split; [rewrite <- ?app_assoc; reflexivity|]);
    repeat split.
Qed.

Lemma getEC2InstanceID_frame : forall w c ci tr,
  exists new, snd (getEC2InstanceID w c ci tr) = tr ++ new /\ quiet new.
Proof.
  intros w c ci tr. unfold_calls. cbn.
  destruct (w_describeContainerInstances w (length tr) c [ci])
    as [[|a l]|] eqn:E; cbn;
    eexists; (split; [rewrite <- ?app_assoc; reflexivity|]);
    repeat split.
Qed.

Lemma getContainerID_frame : forall w c t n tr,
  exists new, snd (getContainerID w c t n tr) = tr ++ new /\ quiet new.
Proof.
  intros w c t n tr. unfold_calls. cbn.
  split_answers; cbn;
    eexists; (split; [rewrite <- ?app_assoc; reflexivity|]);
    repeat split.
Qed.

Lemma startSSMSession_frame : forall w i ci p rg tr,
  let ok := w_run w (length tr) (ssmCmd i ci p rg) in
  startSSMSession w i ci p rg tr
  = (if ok then Ok tt else Error ErrRun, tr ++ [ERun (ssmCmd i ci p rg) ok]).
Proof. reflexivity. Qed.

Lemma sleeps_are_backoff_app : forall l1 l2,
  sleeps_are_backoff l1 -> sleeps_are_backoff l2 ->
  sleeps_are_backoff (l1 ++ l2).
Proof.
  intros l1 l2 H1 H2 s Hin. apply in_app_or in Hin.
  destruct Hin; [apply H1 | apply H2]; assumption.
Qed.

Lemma sleeps_are_backoff_quiet : forall l,
  quiet l -> sleeps_are_backoff l.
Proof.
  intros l (_ & Hs & _) s Hin. exfalso. exact (count_sleeps_nil_notin l s Hs Hin).
Qed.

Lemma sleeps_are_backoff_one : forall e,
  (forall s, e = ESleep s -> s = backoffDelay) -> sleeps_are_backoff [e].
Proof.
  intros e He s [Hin|[]]. apply He. exact Hin.
Qed.

Ltac frame_step :=
  match goal with
  | |- context [getECSTask ?w ?c ?s ?tr] =>
      let H := fresh "F" in
      pose proof (getECSTask_frame w c s tr) as (? & ? & H & ?);
      destruct (getECSTask w c s tr) as [[[? ?]|?] ?];
      cbn [snd] in H; subst
  | |- context [getEC2InstanceID ?w ?c ?ci ?tr] =>
      let H := fresh "F" in
      pose proof (getEC2InstanceID_frame w c ci tr) as (? & H & ?);
      destruct (getEC2InstanceID w c ci tr) as [[?|?] ?];
      cbn [snd] in H; subst
  | |- context [getContainerID ?w ?c ?t ?n ?tr] =>
      let H := fresh "F" in
      pose proof (getContainerID_frame w c t n tr) as (? & H & ?);
      destruct (getContainerID w c t n tr) as [[?|?] ?];
      cbn [snd] in H; subst
  | |- context [startSSMSession ?w ?i ?ci ?p ?rg ?tr] =>
      rewrite (startSSMSession_frame w i ci p rg tr);
      destruct (w_run w _ _)
  end.

Ltac use_quiet :=
  repeat match goal with
  | H : quiet _ |- _ =>
      let a := fresh "Qa" in let b := fresh "Qs" in let c := fresh "Ql" in
      destruct H as (a & b & c)
  end;
  cbn [count_attempts count_sleeps launched];
  rewrite ?count_attempts_app, ?count_sleeps_app, ?launched_app;
  cbn [count_attempts count_sleeps launched];
  repeat match goal with
  | H : count_attempts ?l = 0 |- context [count_attempts ?l] => rewrite H
  | H : count_sleeps ?l = 0 |- context [count_sleeps ?l] => rewrite H
  | H : launched ?l = false |- context [launched ?l] => rewrite H
  end.

Ltac no_other_sleep :=
  let s := fresh "s" in let Hin := fresh "Hin" in
  intros s Hin; cbn [In] in Hin; rewrite ?in_app_iff in Hin; cbn [In] in Hin;
  repeat match goal with
  | H : _ \/ _ |- _ => destruct H
  | H : False |- _ => destruct H
  | H : In (ESleep ?s) ?l, Q : count_sleeps ?l = 0 |- _ =>
      exfalso; exact (count_sleeps_nil_notin l s Q H)
  | H : ESleep _ = ESleep _ |- _ => injection H; intros; subst; reflexivity
  | H : _ = ESleep _ |- _ => discriminate H
  end.

Lemma attempt_shape_ok : forall w fl i tr,
  i < maxRetries ->
  exists new, snd (attempt w fl i tr) = tr ++ new
              /\ attempt_shape fl i (fst (attempt w fl i tr)) new.
Proof.
  intros w fl i tr Hi. unfold maxRetries in Hi.
  assert (Hc : i = 0 \/ i = 1 \/ i = 2) by lia.
  unfold attempt, bind, sleep, ret.
  destruct Hc as [-> | [-> | ->]];
  repeat frame_step; cbn [fst snd maxRetries Nat.eqb Nat.ltb Nat.leb Nat.sub].
  all: eexists; (split; [rewrite <- ?app_assoc; reflexivity|]).
  all: unfold attempt_shape; cbn [app];
       (split; [do 2 eexists; reflexivity|]).
  all: use_quiet.
  all: split; [reflexivity|].
  all: split; [no_other_sleep|].
  all: repeat split; reflexivity.
Qed.

Ltac next_attempt w fl k t :=
  let n := fresh "n" in let E := fresh "E" in let S := fresh "S" in
  destruct (attempt_shape_ok w fl k t) as (n & E & S);
  [unfold maxRetries; lia|];
  destruct (attempt w fl k t) as [[ | ? | ] ?]; cbn [fst snd] in E, S |- *;
  subst.

Lemma app_inv_head_eq : forall (tr l1 l2 : list Event),
  tr ++ l1 = tr ++ l2 -> l1 = l2.
Proof. intros tr l1 l2 H. exact (app_inv_head tr l1 l2 H). Qed.

(** C2: when no pass of the loop launches a session successfully, the
    retry controller makes exactly [maxRetries] = 3 attempts, sleeps the
    fixed 5-second backoff exactly [maxRetries - 1] = 2 times, never after
    the start of the final attempt, and [main] then ends with [log.Fatalf]. *)
Theorem retry_all_fail_three_attempts : forall w fl tr new,
  snd (for_loop w fl maxRetries 0 tr) = tr ++ new ->
  launched new = false ->
  count_attempts new = maxRetries
  /\ count_sleeps new = maxRetries - 1
  /\ sleeps_are_backoff new
  /\ (exists pre res rest,
        new = pre ++ EListTasks (clusterName fl) (serviceName fl) res :: rest
        /\ count_attempts pre = maxRetries - 1
        /\ count_attempts rest = 0 /\ count_sleeps rest = 0)
  /\ exists m, finish (fst (for_loop w fl maxRetries 0 tr)) = Fatal m.
Proof.
  intros w fl tr new Hnew Hl.
  cbn [maxRetries for_loop] in *. unfold bind in *.
  next_attempt w fl 0 tr.
  1: { unfold ret in Hnew. apply app_inv_head_eq in Hnew. subst.
       destruct S as (_ & _ & _ & S). rewrite (proj1 S) in Hl. discriminate. }
  1: { destruct S as (_ & _ & _ & S). discriminate (proj1 S). }
  next_attempt w fl 1 (tr ++ n).
  1: { unfold ret in Hnew. rewrite <- app_assoc in Hnew.
       apply app_inv_head_eq in Hnew. subst.
       destruct S0 as (_ & _ & _ & S0). rewrite launched_app, (proj1 S0), orb_true_r in Hl. discriminate. }
  1: { destruct S0 as (_ & _ & _ & S0). discriminate (proj1 S0). }
  next_attempt w fl 2 ((tr ++ n) ++ n0).
  all: unfold ret in Hnew; rewrite <- !app_assoc in Hnew;
       apply app_inv_head_eq in Hnew; subst.
  1: { destruct S1 as (_ & _ & _ & S1). rewrite !launched_app, (proj1 S1), !orb_true_r in Hl. discriminate. }
  all: destruct S as (_ & Ca & Sb & X), S0 as (_ & Ca0 & Sb0 & X0),
         S1 as ((r2 & rest2 & ->) & Ca1 & Sb1 & X1);
       cbn [maxRetries Nat.eqb Nat.sub] in X, X0, X1;
       cbn [count_attempts] in Ca1.
  all: split; [rewrite !count_attempts_app; cbn [count_attempts];
               rewrite Ca, Ca0, Ca1; reflexivity|].
  all: split; [rewrite !count_sleeps_app; cbn [count_sleeps] in *;
               rewrite (proj2 X), (proj2 X0); cbn [maxRetries];
               try rewrite (proj2 (proj2 X1)); try rewrite (proj2 X1);
               reflexivity|].
  all: split; [repeat apply sleeps_are_backoff_app; assumption|].
  all: split; [exists (n ++ n0), r2, rest2;
               split; [rewrite app_assoc; reflexivity|];
               rewrite count_attempts_app, Ca, Ca0;
               split; [reflexivity|]; split; [lia|]|].
  all: [> cbn [count_sleeps] in X1; tauto | eexists; reflexivity
         | cbn [count_sleeps] in X1; tauto | eexists; reflexivity].
Qed.

(** C6: when the first two passes fail and the third gets through to a
    successful session launch, the loop ends in success, [main] exits 0,
    and exactly two backoff sleeps are made. *)
Theorem retry_two_failures_then_success : forall w fl tr t0 t1 t2,
  attempt w fl 0 tr = (AContinue, t0) ->
  attempt w fl 1 t0 = (AContinue, t1) ->
  attempt w fl 2 t1 = (ASuccess, t2) ->
  for_loop w fl maxRetries 0 tr = (LSuccess, t2)
  /\ finish LSuccess = Exit0
  /\ exists new, t2 = tr ++ new
                 /\ count_attempts new = maxRetries
                 /\ count_sleeps new = 2
                 /\ sleeps_are_backoff new.
Proof.
  intros w fl tr t0 t1 t2 H0 H1 H2.
  destruct (attempt_shape_ok w fl 0 tr) as (n0 & E0 & S0);
    [unfold maxRetries; lia|].
  destruct (attempt_shape_ok w fl 1 t0) as (n1 & E1 & S1);
    [unfold maxRetries; lia|].
  destruct (attempt_shape_ok w fl 2 t1) as (n2 & E2 & S2);
    [unfold maxRetries; lia|].
  rewrite H0 in E0, S0; rewrite H1 in E1, S1; rewrite H2 in E2, S2.
  cbn [fst snd] in *. subst.
  split; [cbn [maxRetries for_loop]; unfold bind; rewrite H0, H1, H2;
          reflexivity|].
  split; [reflexivity|].
  exists (n0 ++ n1 ++ n2). split; [rewrite !app_assoc; reflexivity|].
  destruct S0 as (_ & Ca0 & Sb0 & X0), S1 as (_ & Ca1 & Sb1 & X1),
    S2 as (_ & Ca2 & Sb2 & X2).
  cbn [maxRetries Nat.eqb Nat.sub] in X0, X1.
  rewrite !count_attempts_app, !count_sleeps_app, Ca0, Ca1, Ca2,
    (proj2 X0), (proj2 X1), (proj2 X2).
  split; [reflexivity|]. split; [reflexivity|].
  repeat apply sleeps_are_backoff_app; assumption.
Qed.

(** ** Locality lemmas *)

Lemma agree_from_mono : forall n n' w1 w2,
  n <= n' -> agree_from n w1 w2 -> agree_from n' w1 w2.
Proof. intros n n' w1 w2 Hle H k Hk. apply H. lia. Qed.

Lemma local_ret : forall A (a : A), local (fun _ => ret a).
Proof.
  intros A a w1 w2 tr1 tr2 _ _. exists a, [].
  rewrite !app_nil_r. split; reflexivity.
Qed.

Lemma local_bind : forall A B (m : World -> M A) (f : World -> A -> M B),
  local m -> (forall a, local (fun w => f w a)) ->
  local (fun w => bind (m w) (f w)).
Proof.
  intros A B m f Hm Hf w1 w2 tr1 tr2 Hlen Hag.
  destruct (Hm w1 w2 tr1 tr2 Hlen Hag) as (a & new1 & E1 & E2).
  destruct (Hf a w1 w2 (tr1 ++ new1) (tr2 ++ new1)) as (b & new2 & F1 & F2).
  - rewrite !length_app. lia.
  - apply (agree_from_mono (length tr1)); [rewrite length_app; lia|exact Hag].
  - exists b, (new1 ++ new2). unfold bind. rewrite E1, E2, F1, F2.
    rewrite !app_assoc. split; reflexivity.
Qed.

Ltac local_prim :=
  intros w1 w2 tr1 tr2 Hlen Hag;
  destruct (Hag (length tr1) (le_n _)) as (A1 & A2 & A3 & A4 & A5 & A6 & A7);
  eexists; eexists; split; [reflexivity|];
  rewrite <- ?Hlen, <- ?A1, <- ?A2, <- ?A3, <- ?A4, <- ?A5, <- ?A6, <- ?A7;
  reflexivity.

Lemma local_loadConfig : forall p rg, local (fun w => loadConfig w p rg).
Proof. intros p rg. unfold loadConfig. local_prim. Qed.
Lemma local_getCallerIdentity : local getCallerIdentity.
Proof. unfold getCallerIdentity. local_prim. Qed.
Lemma local_listTasks : forall c s, local (fun w => listTasks w c s).
Proof. intros c s. unfold listTasks. local_prim. Qed.
Lemma local_describeTasks : forall c ts, local (fun w => describeTasks w c ts).
Proof. intros c ts. unfold describeTasks. local_prim. Qed.
Lemma local_describeContainerInstances : forall c cis,
  local (fun w => describeContainerInstances w c cis).
Proof. intros c cis. unfold describeContainerInstances. local_prim. Qed.
Lemma local_randIntn : forall n, local (fun w => randIntn w n).
Proof. intros n. unfold randIntn. local_prim. Qed.
Lemma local_run : forall argv, local (fun w => run w argv).
Proof. intros argv. unfold run. local_prim. Qed.
Lemma local_sleep : forall s, local (fun _ => sleep s).
Proof.
  intros s w1 w2 tr1 tr2 _ _. exists tt, [ESleep s]. split; reflexivity.
Qed.

Create HintDb local_db.
#[export] Hint Resolve local_ret local_loadConfig local_getCallerIdentity
  local_listTasks local_describeTasks local_describeContainerInstances
  local_randIntn local_run local_sleep : local_db.

Ltac solve_local :=
  repeat first
    [ solve [eauto with local_db]
    | apply local_bind
    | lazymatch goal with |- forall _, _ => intro end
    | match goal with
      | |- local (fun _ => match ?x with _ => _ end) => destruct x
      end
    | progress cbv zeta ].

Lemma local_attempt : forall fl i, local (fun w => attempt w fl i).
Proof.
  intros fl i.
  unfold attempt, getECSTask, getEC2InstanceID, getContainerID,
    startSSMSession.
  solve_local.
Qed.

(** C7: after a pass [i] that goes on to the next iteration (a failed
    session launch included), the loop runs pass [i + 1] on the trace left
    by pass [i]; that pass starts with a fresh ListTasks, and its result
    and every call it makes depend only on the answers it receives itself:
    two histories of the same length, whatever identifiers they resolved,
    in worlds answering alike from there on, give the same pass. *)
Theorem retry_reresolves_each_attempt : forall fl i w1 w2 tr1 tr2,
  S i < maxRetries ->
  length tr1 = length tr2 ->
  agree_from (length tr1) w1 w2 ->
  (forall n t0, attempt w1 fl i t0 = (AContinue, tr1) ->
                for_loop w1 fl (S n) i t0 = for_loop w1 fl n (S i) tr1)
  /\ exists r res rest,
       attempt w1 fl (S i) tr1
         = (r, tr1 ++ EListTasks (clusterName fl) (serviceName fl) res :: rest)
       /\ attempt w2 fl (S i) tr2
         = (r, tr2 ++ EListTasks (clusterName fl) (serviceName fl) res :: rest).
Proof.
  intros fl i w1 w2 tr1 tr2 Hi Hlen Hag. split.
  - intros n t0 H. cbn [for_loop]. unfold bind. rewrite H. reflexivity.
  - destruct (local_attempt fl (S i) w1 w2 tr1 tr2 Hlen Hag)
      as (r & new & E1 & E2).
    destruct (attempt_shape_ok w1 fl (S i) tr1 Hi)
      as (new' & E' & (res & rest & Hst) & _).
    rewrite E1 in E'. cbn [snd] in E'. apply app_inv_head_eq in E'.
    subst new'. subst new.
    exists r, res, rest. split; assumption.
Qed.

(** ** The resolvers *)

Lemma find_container_spec : forall name cs rid,
  find_container name cs = Some rid <->
  exists pre c post, cs = pre ++ c :: post
                     /\ Forall (fun x => cName x <> name) pre
                     /\ cName c = name /\ cRuntimeId c = rid.
Proof.
  intros name cs rid. induction cs as [|c cs IH]; cbn.
  - split; [discriminate|]. intros ([|? ?] & ? & ? & H & _); discriminate.
  - destruct (String.eqb (cName c) name) eqn:E.
    + apply String.eqb_eq in E. split.
      * intros H. injection H as <-. exists [], c, cs. repeat split; auto.
      * intros ([|p pre] & c' & post & Hcs & Hpre & Hn & Hr).
        -- injection Hcs as -> ->. f_equal. exact Hr.
        -- injection Hcs as -> _. inversion Hpre. contradiction.
    + apply String.eqb_neq in E. rewrite IH. split.
      * intros (pre & c' & post & Hcs & Hpre & Hn & Hr).
        exists (c :: pre), c', post. rewrite Hcs.
        repeat split; auto.
      * intros ([|p pre] & c' & post & Hcs & Hpre & Hn & Hr).
        -- injection Hcs as -> _. contradiction.
        -- injection Hcs as -> Hcs. inversion Hpre; subst.
           exists pre, c', post. repeat split; auto.
Qed.

Lemma find_container_none : forall name cs,
  find_container name cs = None <-> Forall (fun x => cName x <> name) cs.
Proof.
  intros name cs. induction cs as [|c cs IH]; cbn.
  - split; auto.
  - destruct (String.eqb (cName c) name) eqn:E.
    + apply String.eqb_eq in E. split; [discriminate|].
      intros H. inversion H. contradiction.
    + apply String.eqb_neq in E. rewrite IH. split.
      * intros H. constructor; assumption.
      * intros H. inversion H. assumption.
Qed.

(** C1: once the task is described, the container resolver returns the
    runtime identifier of the first container, in list order, whose name
    is string-equal to the requested name, and fails with the
    "no container named" error exactly when no name matches, whatever
    the length of the list. *)
Theorem getContainerID_first_match : forall w c arn name tr t ts,
  w_describeTasks w (length tr) c [arn] = Some (t :: ts) ->
  (forall rid,
     fst (getContainerID w c arn name tr) = Ok rid <->
     exists pre ct post, tContainers t = pre ++ ct :: post
                         /\ Forall (fun x => cName x <> name) pre
                         /\ cName ct = name /\ cRuntimeId ct = rid)
  /\ (fst (getContainerID w c arn name tr) = Error (ErrNoContainer name) <->
      Forall (fun x => cName x <> name) (tContainers t)).
Proof.
  intros w c arn name tr t ts H.
  unfold getContainerID, describeTasks, bind, ret. cbn. rewrite H.
  split.
  - intros rid. rewrite <- find_container_spec.
    destruct (find_container name (tContainers t)); cbn;
      split; congruence.
  - rewrite <- find_container_none.
    destruct (find_container name (tContainers t)); cbn;
      split; congruence.
Qed.

(** C4: when ListTasks answers an empty list, the task resolver fails with
    "no running tasks", and the pass of the loop makes no other call: no
    random draw, no DescribeTasks, no DescribeContainerInstances, no
    session; it only sleeps before the next pass, or ends the run with
    [log.Fatalf] on the last one. *)
Theorem no_running_tasks_no_lookups : forall w fl i tr,
  w_listTasks w (length tr) (clusterName fl) (serviceName fl) = Some [] ->
  fst (getECSTask w (clusterName fl) (serviceName fl) tr)
    = Error (ErrNoRunningTasks (serviceName fl))
  /\ attempt w fl i tr
     = (if Nat.eqb i (maxRetries - 1)
        then AFatal (FTask (ErrNoRunningTasks (serviceName fl)))
        else AContinue,
        tr ++ [EListTasks (clusterName fl) (serviceName fl) (Some [])]
           ++ (if Nat.eqb i (maxRetries - 1) then []
               else [ESleep backoffDelay])).
Proof.
  intros w fl i tr H.
  unfold attempt, getECSTask, listTasks, sleep, bind, ret. cbn.
  rewrite H. split; [reflexivity|].
  destruct (Nat.eqb i 2); cbn;
    rewrite ?app_nil_r, <- ?app_assoc; reflexivity.
Qed.

(** The task resolver on a non-empty task list, in closed form. *)
Lemma getECSTask_nonempty : forall w c s tr a l,
  w_listTasks w (length tr) c s = Some (a :: l) ->
  let k := w_intn w (S (length tr)) (length (a :: l)) in
  let sel := nth k (a :: l) "" in
  let d := w_describeTasks w (S (S (length tr))) c [sel] in
  getECSTask w c s tr
  = (match d with
     | Some (t :: _) => Ok (sel, tContainerInstanceArn t)
     | _ => Error ErrDescribeTask
     end,
     tr ++ [EListTasks c s (Some (a :: l)); ERandIntn (length (a :: l)) k;
            EDescribeTasks c [sel] d]).
Proof.
  intros w c s tr a l H k sel d.
  unfold getECSTask, listTasks, randIntn, describeTasks, bind, ret.
  cbn [fst snd]. rewrite H. cbn [length Nat.eqb].
  rewrite !length_app. cbn [length]. rewrite !Nat.add_1_r.
  subst k sel d. rewrite <- !app_assoc. cbn [app].
  destruct (w_describeTasks _ _ _ _) as [[|t ts]|]; reflexivity.
Qed.

(** C5: on a non-empty list of [n] task ARNs the task resolver makes one
    fresh draw [k] of [rand.Intn(n)] (after reseeding from the clock) in
    every call, with [0 <= k < n], and selects the ARN at position [k]:
    the selected position is the draw itself, so each position is selected
    exactly when the draw names it, and with a single ARN that ARN is the
    one selected. *)
Theorem getECSTask_random_pick : forall w c s tr l,
  w_listTasks w (length tr) c s = Some l ->
  l <> [] ->
  let k := w_intn w (S (length tr)) (length l) in
  k < length l
  /\ (exists d, snd (getECSTask w c s tr)
                = tr ++ [EListTasks c s (Some l); ERandIntn (length l) k;
                         EDescribeTasks c [nth k l ""] d])
  /\ (forall a h, fst (getECSTask w c s tr) = Ok (a, h) -> a = nth k l "")
  /\ (forall a, l = [a] -> nth k l "" = a).
Proof.
  intros w c s tr l H Hne k.
  destruct l as [|a l]; [contradiction|].
  assert (Hk : k < length (a :: l)) by (apply w_intn_lt; cbn; lia).
  pose proof (getECSTask_nonempty w c s tr a l H) as E. cbn zeta in E.
  fold k in E. rewrite E. cbn [fst snd].
  split; [exact Hk|].
  split; [eexists; reflexivity|].
  split; [destruct (w_describeTasks _ _ _ _) as [[|t ts]|];
          intros a' h Hok; cbn in Hok;
          first [discriminate Hok | injection Hok as <- _; reflexivity]|].
  intros a' Hl. injection Hl as -> ->. cbn in Hk.
  assert (k = 0) as -> by lia. reflexivity.
Qed.

(** C9: after the selection, the task resolver describes the selected
    task; an error or an empty answer gives "could not describe the ECS
    task", and otherwise it returns the selected ARN with the container
    instance ARN of the described task. *)
Theorem getECSTask_describe : forall w c s tr l,
  w_listTasks w (length tr) c s = Some l ->
  l <> [] ->
  let sel := nth (w_intn w (S (length tr)) (length l)) l "" in
  let d := w_describeTasks w (S (S (length tr))) c [sel] in
  ((d = None \/ d = Some []) ->
     fst (getECSTask w c s tr) = Error ErrDescribeTask)
  /\ (forall t ts, d = Some (t :: ts) ->
        fst (getECSTask w c s tr) = Ok (sel, tContainerInstanceArn t)).
Proof.
  intros w c s tr l H Hne sel d.
  destruct l as [|a l]; [contradiction|].
  pose proof (getECSTask_nonempty w c s tr a l H) as E. cbn zeta in E.
  rewrite E. cbn [fst]. fold sel d. split.
  - intros [-> | ->]; reflexivity.
  - intros t ts ->. reflexivity.
Qed.

(** C10: in each resolver an SDK error and an empty answer give the same
    error value: ListTasks gives "no running tasks", DescribeTasks in the
    task resolver and in the container resolver gives "could not describe
    the ECS task", and DescribeContainerInstances gives "could not describe
    container instance"; neither the loop nor the user can tell them
    apart. *)
Theorem api_failure_same_as_empty :
  (forall w c s tr r,
     (r = None \/ r = Some []) -> w_listTasks w (length tr) c s = r ->
     fst (getECSTask w c s tr) = Error (ErrNoRunningTasks s))
  /\ (forall w c s tr a l r,
        w_listTasks w (length tr) c s = Some (a :: l) ->
        (r = None \/ r = Some []) ->
        w_describeTasks w (S (S (length tr))) c
          [nth (w_intn w (S (length tr)) (length (a :: l))) (a :: l) ""] = r ->
        fst (getECSTask w c s tr) = Error ErrDescribeTask)
  /\ (forall w c ci tr r,
        (r = None \/ r = Some []) ->
        w_describeContainerInstances w (length tr) c [ci] = r ->
        fst (getEC2InstanceID w c ci tr) = Error ErrDescribeContainerInstance)
  /\ (forall w c arn name tr r,
        (r = None \/ r = Some []) ->
        w_describeTasks w (length tr) c [arn] = r ->
        fst (getContainerID w c arn name tr) = Error ErrDescribeTask).
Proof.
  split; [|split; [|split]].
  - intros w c s tr r Hr H.
    unfold getECSTask, listTasks, bind, ret. cbn [fst].
    rewrite H. destruct Hr as [-> | ->]; reflexivity.
  - intros w c s tr a l r H Hr Hd.
    rewrite (getECSTask_nonempty w c s tr a l H). cbn [fst].
    rewrite Hd. destruct Hr as [-> | ->]; reflexivity.
  - intros w c ci tr r Hr H.
    unfold getEC2InstanceID, describeContainerInstances, bind, ret.
    cbn [fst]. rewrite H. destruct Hr as [-> | ->]; reflexivity.
  - intros w c arn name tr r Hr H.
    unfold getContainerID, describeTasks, bind, ret.
    cbn [fst]. rewrite H. destruct Hr as [-> | ->]; reflexivity.
Qed.

(** C8 (as the code behaves): when DescribeContainerInstances answers no
    instance, the host resolver fails with "could not describe container
    instance", the error of a failed call; its "no container instances
    found for cluster %s" error is never returned, since the first check
    already covers the empty answer. *)
Theorem getEC2InstanceID_zero_instances :
  fst (getEC2InstanceID (const_world true true None None (Some []) true)
         "prod" "H1" [])
  = Error ErrDescribeContainerInstance
  /\ (forall w c ci tr cl,
        fst (getEC2InstanceID w c ci tr) <> Error (ErrNoContainerInstances cl)).
Proof.
  split; [reflexivity|].
  intros w c ci tr cl.
  unfold getEC2InstanceID, describeContainerInstances, randIntn, bind, ret.
  cbn [fst].
  destruct (w_describeContainerInstances w (length tr) c [ci])
    as [[|x l]|]; cbn; discriminate.
Qed.

(** C3 (as the code behaves): run with no [--profile] flag, [main] still
    launches the session with [--profile ""], because it hands
    [startSSMSession] the pointer from [flag.String], which is never nil. *)
Theorem main_passes_empty_profile :
  profile (example_flags "app") = ""
  /\ In (ERun (ssmCmd "I1" "rt-123" (Some "") region) true)
        (snd (main (example_world true) (example_flags "app") []))
  /\ In "--profile" (ssmCmd "I1" "rt-123" (Some "") region).
Proof.
  split; [reflexivity|]. split.
  - cbn. repeat first [left; reflexivity | right].
  - cbn. repeat first [left; reflexivity | right].
Qed.

(** ** Witnesses: the hypotheses of the theorems hold on concrete runs *)

Lemma getContainerID_first_match_witness :
  w_describeTasks (example_world true) (length (@nil Event)) "prod" ["T1"]
    = Some [example_task]
  /\ fst (getContainerID (example_world true) "prod" "T1" "sidecar" [])
     = Ok "rt-456".
Proof.
  split; [reflexivity|].
  apply (proj1 (getContainerID_first_match (example_world true) "prod" "T1"
                  "sidecar" [] example_task [] eq_refl) "rt-456").
  exists [mkContainer "app" "rt-123"], (mkContainer "sidecar" "rt-456"), [].
  split; [reflexivity|]. split; [|split; reflexivity].
  constructor; [cbn; discriminate | constructor].
Defined.

Lemma retry_all_fail_three_attempts_witness :
  let w := example_world false in
  let fl := example_flags "app" in
  let new := snd (for_loop w fl maxRetries 0 []) in
  launched new = false
  /\ count_attempts new = maxRetries /\ count_sleeps new = maxRetries - 1
  /\ exists m, finish (fst (for_loop w fl maxRetries 0 [])) = Fatal m.
Proof.
  intros w fl new.
  split; [vm_compute; reflexivity|].
  destruct (retry_all_fail_three_attempts w fl [] new)
    as (A & B & _ & _ & D); [reflexivity | vm_compute; reflexivity |].
  split; [exact A|]. split; [exact B|]. exact D.
Defined.

Lemma retry_two_failures_then_success_witness :
  let w := flaky_world 1 None 10 in
  let fl := example_flags "app" in
  let t0 := snd (attempt w fl 0 []) in
  let t1 := snd (attempt w fl 1 t0) in
  let t2 := snd (attempt w fl 2 t1) in
  attempt w fl 0 [] = (AContinue, t0)
  /\ attempt w fl 1 t0 = (AContinue, t1)
  /\ attempt w fl 2 t1 = (ASuccess, t2)
  /\ for_loop w fl maxRetries 0 [] = (LSuccess, t2).
Proof.
  intros w fl t0 t1 t2.
  assert (H0 : attempt w fl 0 [] = (AContinue, t0)) by reflexivity.
  assert (H1 : attempt w fl 1 t0 = (AContinue, t1)) by reflexivity.
  assert (H2 : attempt w fl 2 t1 = (ASuccess, t2)) by reflexivity.
  split; [exact H0|]. split; [exact H1|]. split; [exact H2|].
  exact (proj1 (retry_two_failures_then_success w fl [] t0 t1 t2 H0 H1 H2)).
Defined.

Lemma retry_reresolves_each_attempt_witness :
  let w1 := flaky_world 0 None 16 in
  let w2 := flaky_world 16 (Some ["T9"]) 16 in
  let fl := example_flags "app" in
  let t0 := snd (attempt w1 fl 0 []) in
  let tr1 := snd (attempt w1 fl 1 t0) in
  let tr2 := snd (attempt w2 fl 1 (snd (attempt w2 fl 0 []))) in
  attempt w1 fl 1 t0 = (AContinue, tr1)
  /\ length tr1 = length tr2
  /\ agree_from (length tr1) w1 w2
  /\ fst (attempt w1 fl 2 tr1) = fst (attempt w2 fl 2 tr2).
Proof.
  intros w1 w2 fl t0 tr1 tr2.
  assert (Ha : attempt w1 fl 1 t0 = (AContinue, tr1)) by reflexivity.
  assert (Hl : length tr1 = length tr2) by reflexivity.
  assert (Hg : agree_from (length tr1) w1 w2).
  { intros k Hk. vm_compute in Hk.
    assert (E1 : Nat.ltb k 0 = false) by (apply Nat.ltb_ge; lia).
    assert (E2 : Nat.ltb k 16 = false) by (apply Nat.ltb_ge; lia).
    unfold w1, w2, flaky_world;
    cbn [w_loadConfig w_getCallerIdentity w_listTasks w_describeTasks
         w_describeContainerInstances w_intn w_run].
    rewrite E1, E2. repeat split. }
  split; [exact Ha|]. split; [exact Hl|]. split; [exact Hg|].
  destruct (retry_reresolves_each_attempt fl 1 w1 w2 tr1 tr2
              (le_n _) Hl Hg) as (_ & r & res & rest & E1 & E2).
  rewrite E1, E2. reflexivity.
Defined.

Lemma no_running_tasks_no_lookups_witness :
  let w := const_world true true (Some []) None None true in
  let fl := example_flags "app" in
  w_listTasks w (length (@nil Event)) "prod" "web" = Some []
  /\ attempt w fl 0 [] = (AContinue, [EListTasks "prod" "web" (Some []);
                                       ESleep backoffDelay]).
Proof.
  intros w fl. split; [reflexivity|].
  exact (proj2 (no_running_tasks_no_lookups w fl 0 [] eq_refl)).
Defined.

Lemma getECSTask_random_pick_witness :
  let w := example_world true in
  w_listTasks w (length (@nil Event)) "prod" "web" = Some ["T1"]
  /\ fst (getECSTask w "prod" "web" []) = Ok ("T1", "H1")
  /\ nth (w_intn w 1 1) ["T1"] "" = "T1".
Proof.
  intros w. split; [reflexivity|]. split; [reflexivity|].
  destruct (getECSTask_random_pick w "prod" "web" [] ["T1"] eq_refl
              ltac:(discriminate)) as (_ & _ & _ & D).
  exact (D "T1" eq_refl).
Defined.

Lemma getECSTask_describe_witness :
  let w := const_world true true (Some ["T1"; "T2"]) (Some []) None true in
  w_listTasks w (length (@nil Event)) "prod" "web" = Some ["T1"; "T2"]
  /\ fst (getECSTask w "prod" "web" []) = Error ErrDescribeTask.
Proof.
  intros w. split; [reflexivity|].
  apply (proj1 (getECSTask_describe w "prod" "web" [] ["T1"; "T2"] eq_refl
                  ltac:(discriminate))).
  right. reflexivity.
Defined.

Lemma api_failure_same_as_empty_witness :
  let w := const_world true true None None None true in
  fst (getECSTask w "prod" "web" []) = Error (ErrNoRunningTasks "web")
  /\ fst (getEC2InstanceID w "prod" "H1" []) = Error ErrDescribeContainerInstance
  /\ fst (getContainerID w "prod" "T1" "app" []) = Error ErrDescribeTask.
Proof.
  intros w. destruct api_failure_same_as_empty as (A & _ & C & D).
  split; [exact (A w "prod" "web" [] None (or_introl eq_refl) eq_refl)|].
  split; [exact (C w "prod" "H1" [] None (or_introl eq_refl) eq_refl)|].
  exact (D w "prod" "T1" "app" [] None (or_introl eq_refl) eq_refl).
Defined.

(** ** Further properties of the program *)

Lemma count_runs_app : forall l1 l2,
  count_runs (l1 ++ l2) = count_runs l1 + count_runs l2.
Proof.
  induction l1 as [|e l1 IH]; intros l2; [reflexivity|].
  destruct e; simpl; rewrite ?IH; reflexivity.
Qed.

Lemma getECSTask_runs : forall w c s tr,
  count_runs (snd (getECSTask w c s tr)) = count_runs tr.
Proof.
  intros w c s tr. unfold_calls. cbn.
  destruct (w_listTasks w (length tr) c s) as [[|a l]|] eqn:E; cbn;
    [| split_answers; cbn |];
    rewrite ?count_runs_app; cbn; lia.
Qed.

Lemma getEC2InstanceID_runs : forall w c ci tr,
  count_runs (snd (getEC2InstanceID w c ci tr)) = count_runs tr.
Proof.
  intros w c ci tr. unfold_calls. cbn.
  destruct (w_describeContainerInstances w (length tr) c [ci])
    as [[|a l]|] eqn:E; cbn; rewrite ?count_runs_app; cbn; lia.
Qed.

Lemma getContainerID_runs : forall w c t n tr,
  count_runs (snd (getContainerID w c t n tr)) = count_runs tr.
Proof.
  intros w c t n tr. unfold_calls. cbn.
  split_answers; cbn; rewrite ?count_runs_app; cbn; lia.
Qed.

Ltac frame_step_r :=
  match goal with
  | |- context [getECSTask ?w ?c ?s ?tr] =>
      let H := fresh "F" in let R := fresh "R" in
      pose proof (getECSTask_frame w c s tr) as (? & ? & H & ?);
      pose proof (getECSTask_runs w c s tr) as R;
      destruct (getECSTask w c s tr) as [[[? ?]|?] ?];
      cbn [snd] in H, R; subst; rewrite count_runs_app in R; cbn in R
  | |- context [getEC2InstanceID ?w ?c ?ci ?tr] =>
      let H := fresh "F" in let R := fresh "R" in
      pose proof (getEC2InstanceID_frame w c ci tr) as (? & H & ?);
      pose proof (getEC2InstanceID_runs w c ci tr) as R;
      destruct (getEC2InstanceID w c ci tr) as [[?|?] ?];
      cbn [snd] in H, R; subst; rewrite count_runs_app in R
  | |- context [getContainerID ?w ?c ?t ?n ?tr] =>
      let H := fresh "F" in let R := fresh "R" in
      pose proof (getContainerID_frame w c t n tr) as (? & H & ?);
      pose proof (getContainerID_runs w c t n tr) as R;
      destruct (getContainerID w c t n tr) as [[?|?] ?];
      cbn [snd] in H, R; subst; rewrite count_runs_app in R
  | |- context [startSSMSession ?w ?i ?ci ?p ?rg ?tr] =>
      rewrite (startSSMSession_frame w i ci p rg tr);
      destruct (w_run w _ _)
  end.

(** One pass of the loop body, whatever its counter: one ListTasks, at
    most one session launch, and it reports success exactly when a launch
    succeeded, that launch being its last call. *)
Lemma attempt_basic : forall w fl i tr,
  exists new, snd (attempt w fl i tr) = tr ++ new
    /\ count_attempts new = 1
    /\ count_runs new <= 1
    /\ (fst (attempt w fl i tr) = ASuccess ->
        exists pre argv, new = pre ++ [ERun argv true] /\ launched pre = false)
    /\ (launched new = true -> fst (attempt w fl i tr) = ASuccess).
Proof.
  intros w fl i tr.
  unfold attempt, bind, sleep, ret.
  repeat frame_step_r; cbn [fst snd];
  repeat match goal with |- context [if ?b then _ else _] => destruct b end;
  cbn [fst snd].
  all: eexists; (split; [rewrite <- ?app_assoc; reflexivity|]).
  all: repeat match goal with
       | R : ?a + count_runs ?x = ?a |- _ =>
           let Z := fresh "Z" in assert (Z : count_runs x = 0) by lia; clear R
       end.
  all: use_quiet.
  all: split; [reflexivity|].
  all: split; [cbn [count_runs]; rewrite ?count_runs_app; cbn [count_runs];
               lia|].
  all: split; [first [ intros Hf; discriminate Hf
                     | intros _; do 2 eexists; split;
                       [rewrite !app_assoc; reflexivity|];
                       rewrite !launched_app; cbn [launched];
                       rewrite ?Ql, ?Ql0, ?Ql1; reflexivity ] |].
  all: intros HL; first [reflexivity | discriminate HL].
Qed.

Lemma for_loop_summary : forall n w fl i tr,
  exists new, snd (for_loop w fl n i tr) = tr ++ new
    /\ count_attempts new <= n
    /\ count_runs new <= n
    /\ (fst (for_loop w fl n i tr) = LSuccess ->
        exists pre argv, new = pre ++ [ERun argv true] /\ launched pre = false)
    /\ (launched new = true -> fst (for_loop w fl n i tr) = LSuccess).
Proof.
  induction n as [|n IH]; intros w fl i tr.
  - exists []. cbn. rewrite app_nil_r.
    split; [reflexivity|]. split; [lia|]. split; [lia|].
    split; intros H; discriminate H.
  - cbn [for_loop]. unfold bind.
    destruct (attempt_basic w fl i tr) as (n0 & E0 & A0 & R0 & S0 & L0).
    destruct (attempt w fl i tr) as [r t]. cbn [fst snd] in *. subst t.
    assert (Hl0 : r <> ASuccess -> launched n0 = false).
    { intros Hr. destruct (launched n0); [|reflexivity].
      exfalso. exact (Hr (L0 eq_refl)). }
    destruct r as [ | m | ].
    + exists n0. unfold ret. cbn [fst snd].
      split; [reflexivity|]. split; [lia|]. split; [lia|].
      split; [intros _; exact (S0 eq_refl)|]. intros _; reflexivity.
    + exists n0. unfold ret. cbn [fst snd].
      rewrite (Hl0 ltac:(discriminate)).
      split; [reflexivity|]. split; [lia|]. split; [lia|].
      split; intros H; discriminate H.
    + destruct (IH w fl (S i) (tr ++ n0)) as (n1 & E1 & A1 & R1 & S1 & L1).
      specialize (Hl0 ltac:(discriminate)).
      exists (n0 ++ n1). rewrite E1, <- app_assoc.
      split; [reflexivity|].
      rewrite count_attempts_app, count_runs_app, launched_app, Hl0.
      split; [lia|]. split; [lia|]. split; [|exact L1].
      intros Hs. destruct (S1 Hs) as (pre & argv & -> & Hp).
      exists (n0 ++ pre), argv. rewrite app_assoc.
      split; [reflexivity|]. rewrite launched_app, Hl0. exact Hp.
Qed.

(** A run of [main]: at most [maxRetries] attempts and session launches,
    and it exits 0 exactly when a session launch succeeded, that launch
    being its last call. *)
Lemma main_summary : forall w fl tr,
  exists new, snd (main w fl tr) = tr ++ new
    /\ count_attempts new <= maxRetries
    /\ count_runs new <= maxRetries
    /\ (fst (main w fl tr) = Exit0 ->
        exists pre argv, new = pre ++ [ERun argv true] /\ launched pre = false)
    /\ (launched new = true -> fst (main w fl tr) = Exit0).
Proof.
  intros w fl tr. unfold main.
  destruct (String.eqb (serviceName fl) "" || String.eqb (containerName fl) "").
  { exists []. unfold ret. cbn. rewrite app_nil_r.
    split; [reflexivity|]. split; [cbn; lia|]. split; [cbn; lia|].
    split; intros H; discriminate H. }
  unfold bind, loadConfig, getCallerIdentity, ret. cbn [fst snd].
  destruct (w_loadConfig w _ _ _) eqn:Ec; cbn [negb].
  2: { eexists. split; [reflexivity|]. cbn. split; [lia|]. split; [lia|].
       split; intros H; discriminate H. }
  destruct (w_getCallerIdentity w _) eqn:Ea; cbn [negb].
  2: { eexists. split; [rewrite <- app_assoc; reflexivity|]. cbn.
       split; [lia|]. split; [lia|]. split; intros H; discriminate H. }
  destruct (for_loop_summary maxRetries w fl 0
              ((tr ++ [ELoadConfig (if String.eqb (profile fl) "" then None
                                     else Some (profile fl)) region true])
                ++ [EGetCallerIdentity true]))
    as (n1 & E1 & A1 & R1 & S1 & L1).
  destruct (for_loop w fl maxRetries 0 _) as [r t]. cbn [fst snd] in *.
  subst t.
  exists ([ELoadConfig (if String.eqb (profile fl) "" then None
                        else Some (profile fl)) region true;
           EGetCallerIdentity true] ++ n1).
  split; [rewrite <- !app_assoc; reflexivity|].
  rewrite count_attempts_app, count_runs_app, launched_app. cbn.
  split; [lia|]. split; [lia|]. split.
  - intros Hf. destruct r; try discriminate Hf.
    destruct (S1 eq_refl) as (pre & argv & -> & Hp).
    exists (ELoadConfig (if String.eqb (profile fl) "" then None
                         else Some (profile fl)) region true
            :: EGetCallerIdentity true :: pre), argv.
    split; [reflexivity|]. exact Hp.
  - intros Hl. rewrite (L1 Hl). reflexivity.
Qed.

Lemma length_snoc : forall (tr : list Event) e, length (tr ++ [e]) = S (length tr).
Proof. intros tr e. rewrite length_app. cbn. lia. Qed.

(** Usage check of [main]: when [--service] or [--container] is empty,
    the run ends with the usage message before any call: it does not load
    the configuration, check credentials or call ECS. *)
Theorem main_usage_no_calls : forall w fl tr,
  serviceName fl = "" \/ containerName fl = "" ->
  main w fl tr = (Fatal FUsage, tr).
Proof.
  intros w fl tr [H | H]; unfold main; rewrite H; cbn [String.eqb].
  - reflexivity.
  - rewrite orb_true_r. reflexivity.
Qed.

(** Configuration loading of [main]: with both required flags set, the
    first call is [config.LoadDefaultConfig] with region eu-west-2 and
    the shared-config profile exactly when [--profile] is non-empty; when
    loading fails, the run ends with the config error and that is its
    only call. *)
Theorem main_load_config_first : forall w fl tr,
  serviceName fl <> "" -> containerName fl <> "" ->
  let p := if String.eqb (profile fl) "" then None else Some (profile fl) in
  let ok := w_loadConfig w (length tr) p region in
  (exists rest, snd (main w fl tr) = tr ++ ELoadConfig p region ok :: rest)
  /\ (ok = false ->
      main w fl tr = (Fatal FLoadConfig, tr ++ [ELoadConfig p region false])).
Proof.
  intros w fl tr Hs Hc p ok.
  unfold main. rewrite (proj2 (String.eqb_neq _ _) Hs),
    (proj2 (String.eqb_neq _ _) Hc). cbn [orb].
  unfold bind, loadConfig. cbv beta iota. fold p. fold ok.
  destruct ok eqn:Eok; cbn [negb].
  - split; [|discriminate].
    unfold bind, getCallerIdentity, ret.
    destruct (w_getCallerIdentity w _); cbn [negb fst snd].
    + destruct (for_loop_summary maxRetries w fl 0
                 ((tr ++ [ELoadConfig p region true]) ++
                  [EGetCallerIdentity true])) as (n1 & E1 & _).
      destruct (for_loop w fl maxRetries 0 _) as [r t]. cbn [snd] in *.
      subst t. exists (EGetCallerIdentity true :: n1).
      rewrite <- !app_assoc. reflexivity.
    + exists [EGetCallerIdentity false]. rewrite <- app_assoc. reflexivity.
  - split; [|reflexivity]. exists []. reflexivity.
Qed.

(** Credential check of [main] ([validateAWSCredentials]): after the
    configuration loads, a failing STS GetCallerIdentity ends the run with
    the credentials error; no ECS call, no sleep and no session follow. *)
Theorem main_auth_failure : forall w fl tr,
  serviceName fl <> "" -> containerName fl <> "" ->
  let p := if String.eqb (profile fl) "" then None else Some (profile fl) in
  w_loadConfig w (length tr) p region = true ->
  w_getCallerIdentity w (S (length tr)) = false ->
  main w fl tr
  = (Fatal FAuth, tr ++ [ELoadConfig p region true; EGetCallerIdentity false]).
Proof.
  intros w fl tr Hs Hc p Hcfg Hauth.
  unfold main. rewrite (proj2 (String.eqb_neq _ _) Hs),
    (proj2 (String.eqb_neq _ _) Hc). cbn [orb].
  unfold bind, loadConfig, getCallerIdentity, ret. fold p.
  rewrite Hcfg. cbn [negb]. rewrite length_snoc, Hauth. cbn [negb].
  rewrite <- app_assoc. reflexivity.
Qed.

(** [main] exits 0 exactly when a session launch succeeded; that launch
    is then the last call of the run and the only successful one. *)
Theorem main_exit0_iff_session : forall w fl tr,
  exists new, snd (main w fl tr) = tr ++ new
    /\ (fst (main w fl tr) = Exit0 <-> launched new = true)
    /\ (fst (main w fl tr) = Exit0 ->
        exists pre argv, new = pre ++ [ERun argv true] /\ launched pre = false).
Proof.
  intros w fl tr.
  destruct (main_summary w fl tr) as (new & E & _ & _ & S & L).
  exists new. split; [exact E|]. split; [|exact S].
  split; [|exact L].
  intros H. destruct (S H) as (pre & argv & -> & _).
  rewrite launched_app. cbn. apply orb_true_r.
Qed.

(** Whatever the answers, a run of [main] lists tasks (starts an attempt)
    at most [maxRetries] = 3 times and launches at most 3 sessions. *)
Theorem main_bounded_attempts : forall w fl tr,
  exists new, snd (main w fl tr) = tr ++ new
    /\ count_attempts new <= maxRetries
    /\ count_runs new <= maxRetries.
Proof.
  intros w fl tr.
  destruct (main_summary w fl tr) as (new & E & A & R & _).
  exists new. auto.
Qed.

(** The host resolver on a non-empty answer: it draws [k] with
    [rand.Intn(len)], [0 <= k < len], and returns the EC2 instance ID of
    the instance at position [k]; these are its only two calls, and with
    a single instance that instance's ID is returned. *)
Theorem getEC2InstanceID_random_instance : forall w c ci tr insts,
  w_describeContainerInstances w (length tr) c [ci] = Some insts ->
  insts <> [] ->
  let k := w_intn w (S (length tr)) (length insts) in
  k < length insts
  /\ getEC2InstanceID w c ci tr
     = (Ok (ciEc2InstanceId (nth k insts (mkContainerInstance ""))),
        tr ++ [EDescribeContainerInstances c [ci] (Some insts);
               ERandIntn (length insts) k])
  /\ (forall x, insts = [x] ->
        fst (getEC2InstanceID w c ci tr) = Ok (ciEc2InstanceId x)).
Proof.
  intros w c ci tr insts H Hne k.
  destruct insts as [|x l]; [contradiction|].
  assert (Hk : k < length (x :: l)) by (apply w_intn_lt; cbn; lia).
  assert (E : getEC2InstanceID w c ci tr
     = (Ok (ciEc2InstanceId (nth k (x :: l) (mkContainerInstance ""))),
        tr ++ [EDescribeContainerInstances c [ci] (Some (x :: l));
               ERandIntn (length (x :: l)) k])).
  { unfold getEC2InstanceID, describeContainerInstances, randIntn, bind, ret.
    cbv beta iota zeta. rewrite H. cbn [length Nat.eqb].
    rewrite length_snoc, <- app_assoc. reflexivity. }
  split; [exact Hk|]. split; [exact E|].
  intros y Hy. injection Hy as -> ->. rewrite E. cbn in Hk |- *.
  assert (k = 0) as -> by lia. reflexivity.
Qed.

Lemma getECSTask_ok : forall w c s tr arn h,
  fst (getECSTask w c s tr) = Ok (arn, h) ->
  exists arns k t ts,
    arn = nth k arns "" /\ h = tContainerInstanceArn t
    /\ snd (getECSTask w c s tr)
       = tr ++ [EListTasks c s (Some arns); ERandIntn (length arns) k;
                EDescribeTasks c [arn] (Some (t :: ts))].
Proof.
  intros w c s tr arn h.
  destruct (w_listTasks w (length tr) c s) as [[|a l]|] eqn:E.
  2: { rewrite (getECSTask_nonempty w c s tr a l E). cbv zeta.
       destruct (w_describeTasks _ _ _ _) as [[|t ts]|]; cbn [fst snd];
         intros H; try discriminate H.
       injection H as <- <-.
       exists (a :: l), (w_intn w (S (length tr)) (length (a :: l))), t, ts.
       split; [reflexivity|]. split; reflexivity. }
  all: unfold_calls; cbn; rewrite E; cbn; discriminate.
Qed.

Lemma getEC2InstanceID_ok : forall w c ci tr id,
  fst (getEC2InstanceID w c ci tr) = Ok id ->
  exists insts k,
    id = ciEc2InstanceId (nth k insts (mkContainerInstance ""))
    /\ snd (getEC2InstanceID w c ci tr)
       = tr ++ [EDescribeContainerInstances c [ci] (Some insts);
                ERandIntn (length insts) k].
Proof.
  intros w c ci tr id. unfold_calls. cbv beta iota zeta.
  destruct (w_describeContainerInstances w (length tr) c [ci])
    as [[|a l]|] eqn:E; cbn [length Nat.eqb fst snd];
    intros H; try discriminate H.
  injection H as <-.
  exists (a :: l),
    (w_intn w (length (tr ++ [EDescribeContainerInstances c [ci]
                                (Some (a :: l))])) (length (a :: l))).
  split; [reflexivity|].
  rewrite <- !app_assoc. reflexivity.
Qed.

Lemma getContainerID_ok : forall w c arn n tr rid,
  fst (getContainerID w c arn n tr) = Ok rid ->
  exists t ts,
    find_container n (tContainers t) = Some rid
    /\ snd (getContainerID w c arn n tr)
       = tr ++ [EDescribeTasks c [arn] (Some (t :: ts))].
Proof.
  intros w c arn n tr rid. unfold_calls. cbn.
  split_answers; cbn; intros H; try discriminate H.
  injection H as <-. do 2 eexists. split; [eassumption|]. reflexivity.
Qed.

(** The calls of a successful pass of the loop body, in order: ListTasks;
    a draw [k1] that selects a task ARN; DescribeTasks of that ARN;
    DescribeContainerInstances of the container instance ARN of the first
    described task; a draw [k2] that selects an instance; a second
    DescribeTasks of the same ARN, whose first task holds the requested
    container; and one successful [aws ssm start-session] on the selected
    instance and that container's runtime ID, with [--profile] and the
    flag's value. *)
Theorem attempt_success_calls : forall w fl i tr,
  fst (attempt w fl i tr) = ASuccess ->
  exists arns k1 t1 ts1 insts k2 t2 ts2 rid,
    let arn := nth k1 arns "" in
    let inst := ciEc2InstanceId (nth k2 insts (mkContainerInstance "")) in
    find_container (containerName fl) (tContainers t2) = Some rid
    /\ snd (attempt w fl i tr)
       = tr ++ [EListTasks (clusterName fl) (serviceName fl) (Some arns);
                ERandIntn (length arns) k1;
                EDescribeTasks (clusterName fl) [arn] (Some (t1 :: ts1));
                EDescribeContainerInstances (clusterName fl)
                  [tContainerInstanceArn t1] (Some insts);
                ERandIntn (length insts) k2;
                EDescribeTasks (clusterName fl) [arn] (Some (t2 :: ts2));
                ERun (ssmCmd inst rid (Some (profile fl)) region) true].
Proof.
  intros w fl i tr. unfold attempt, bind, sleep, ret.
  destruct (getECSTask w (clusterName fl) (serviceName fl) tr)
    as [r1 tr1] eqn:E1.
  destruct r1 as [[arn h]|e1];
    [|destruct (Nat.eqb i (maxRetries - 1)); cbn; discriminate].
  destruct (getECSTask_ok w (clusterName fl) (serviceName fl) tr arn h)
    as (arns & k1 & t1 & ts1 & -> & -> & T1); [rewrite E1; reflexivity|].
  rewrite E1 in T1. cbn [snd] in T1. subst tr1.
  destruct (getEC2InstanceID w _ _ _) as [r2 tr2] eqn:E2.
  destruct r2 as [id|e2];
    [|destruct (Nat.eqb i (maxRetries - 1)); cbn; discriminate].
  lazymatch type of E2 with getEC2InstanceID _ ?c ?ci ?t = _ =>
    destruct (getEC2InstanceID_ok w c ci t id)
      as (insts & k2 & -> & T2); [rewrite E2; reflexivity|] end.
  rewrite E2 in T2. cbn [snd] in T2. subst tr2.
  destruct (getContainerID w _ _ _ _) as [r3 tr3] eqn:E3.
  destruct r3 as [rid|e3];
    [|destruct (Nat.eqb i (maxRetries - 1)); cbn; discriminate].
  lazymatch type of E3 with getContainerID _ ?c ?a ?n ?t = _ =>
    destruct (getContainerID_ok w c a n t rid)
      as (t2 & ts2 & Hf & T3); [rewrite E3; reflexivity|] end.
  rewrite E3 in T3. cbn [snd] in T3. subst tr3.
  rewrite startSSMSession_frame. cbv zeta.
  destruct (w_run w _ _);
    [|destruct (Nat.ltb i (maxRetries - 1)); cbn; discriminate].
  intros _. exists arns, k1, t1, ts1, insts, k2, t2, ts2, rid.
  cbv zeta. split; [exact Hf|]. cbn [snd].
  rewrite <- !app_assoc. reflexivity.
Qed.

Section StringFacts.

Local Open Scope string_scope.

Lemma append_assoc_s : forall a b c : string, (a ++ b) ++ c = a ++ (b ++ c).
Proof. induction a as [|x a IH]; intros b c; cbn; [reflexivity|]. rewrite IH. reflexivity. Qed.

Lemma append_cancel_l : forall s a b : string, s ++ a = s ++ b -> a = b.
Proof.
  induction s as [|x s IH]; intros a b H; cbn in H; [exact H|].
  injection H as H. exact (IH a b H).
Qed.

Lemma length_append_s : forall a b : string,
  String.length (a ++ b) = String.length a + String.length b.
Proof. induction a as [|x a IH]; intros b; cbn; [reflexivity|]. rewrite IH. reflexivity. Qed.

Lemma append_cancel_r : forall a b s : string, a ++ s = b ++ s -> a = b.
Proof.
  induction a as [|x a IH]; intros [|y b] s H; cbn in H.
  - reflexivity.
  - apply (f_equal String.length) in H. cbn in H.
    rewrite length_append_s in H. lia.
  - apply (f_equal String.length) in H. cbn in H.
    rewrite length_append_s in H. lia.
  - injection H as -> H. f_equal. exact (IH b s H).
Qed.

Lemma ssm_parameters_split : forall c,
  ssm_parameters c
  = ("{" ++ dq ++ "command" ++ dq ++ ":[" ++ dq ++ "sudo docker exec -it ")
    ++ c ++ (" bash" ++ dq ++ "]}").
Proof. intros c. reflexivity. Qed.

Lemma Legacy_ssm_parameters_split : forall c,
  Legacy.ssm_parameters c
  = ("command=" ++ dq ++ "sudo docker exec -it ") ++ c ++ (" bash" ++ dq).
Proof. intros c. reflexivity. Qed.

End StringFacts.

(** The command line of [startSSMSession] determines its inputs: two
    launches with the same argument vector target the same instance and
    container, in the same region, with the same [--profile] (or none);
    in particular the [--parameters] string built by [fmt.Sprintf] never
    maps two container IDs to the same command. *)
Theorem ssmCmd_injective : forall i1 c1 p1 r1 i2 c2 p2 r2,
  ssmCmd i1 c1 p1 r1 = ssmCmd i2 c2 p2 r2 ->
  i1 = i2 /\ c1 = c2 /\ p1 = p2 /\ r1 = r2.
Proof.
  intros i1 c1 p1 r1 i2 c2 p2 r2 H.
  assert (Hc : ssm_parameters c1 = ssm_parameters c2)
    by exact (f_equal (fun l => nth 8 l ""%string) H).
  unfold ssmCmd in H. cbn [app] in H.
  injection H as Hi _ Hr Hp.
  rewrite !ssm_parameters_split in Hc.
  apply append_cancel_l, append_cancel_r in Hc.
  split; [exact Hi|]. split; [exact Hc|]. split; [|exact Hr].
  destruct p1, p2; cbn in Hp; try discriminate Hp; [|reflexivity].
  injection Hp as ->. reflexivity.
Qed.

(** The same for the earlier launcher of part_000, whose parameters are
    in [command=...] form. *)
Theorem Legacy_ssmCmd_injective : forall i1 c1 p1 r1 i2 c2 p2 r2,
  Legacy.ssmCmd i1 c1 p1 r1 = Legacy.ssmCmd i2 c2 p2 r2 ->
  i1 = i2 /\ c1 = c2 /\ p1 = p2 /\ r1 = r2.
Proof.
  intros i1 c1 p1 r1 i2 c2 p2 r2 H.
  assert (Hc : Legacy.ssm_parameters c1 = Legacy.ssm_parameters c2)
    by exact (f_equal (fun l => nth 8 l ""%string) H).
  unfold Legacy.ssmCmd in H. cbn [app] in H.
  injection H as Hi _ Hr Hp.
  rewrite !Legacy_ssm_parameters_split in Hc.
  apply append_cancel_l, append_cancel_r in Hc.
  split; [exact Hi|]. split; [exact Hc|]. split; [|exact Hr].
  destruct p1, p2; cbn in Hp; try discriminate Hp; [|reflexivity].
  injection Hp as ->. reflexivity.
Qed.

Lemma count_draws_app : forall l1 l2,
  count_draws (l1 ++ l2) = count_draws l1 + count_draws l2.
Proof.
  induction l1 as [|e l1 IH]; intros l2; [reflexivity|].
  destruct e; simpl; rewrite ?IH; reflexivity.
Qed.

Lemma count_identity_checks_app : forall l1 l2,
  count_identity_checks (l1 ++ l2)
  = count_identity_checks l1 + count_identity_checks l2.
Proof.
  induction l1 as [|e l1 IH]; intros l2; [reflexivity|].
  destruct e; simpl; rewrite ?IH; reflexivity.
Qed.

Lemma launched_runs : forall l, count_runs l = 0 -> launched l = false.
Proof.
  induction l as [|e l IH]; intros H; [reflexivity|].
  destruct e; cbn in H |- *; try discriminate H; exact (IH H).
Qed.

Ltac count_new :=
  rewrite ?count_attempts_app, ?count_runs_app, ?count_sleeps_app,
    ?count_draws_app, ?count_identity_checks_app;
  cbn [count_attempts count_runs count_sleeps count_draws
       count_identity_checks].

Lemma Legacy_getECSTask_trace : forall w c s tr,
  exists new, snd (Legacy.getECSTask w c s tr) = tr ++ new
    /\ count_attempts new = 1 /\ count_runs new = 0 /\ count_sleeps new = 0
    /\ count_draws new = 0 /\ count_identity_checks new = 0.
Proof.
  intros w c s tr.
  unfold Legacy.getECSTask, listTasks, describeTasks, bind, ret. cbn.
  destruct (w_listTasks w (length tr) c s) as [[|a l]|]; cbn;
    [| split_answers; cbn |];
    eexists; (split; [rewrite <- ?app_assoc; reflexivity|]);
    cbn; repeat split.
Qed.

Lemma Legacy_getEC2InstanceID_trace : forall w c ci tr,
  exists new, snd (Legacy.getEC2InstanceID w c ci tr) = tr ++ new
    /\ count_attempts new = 0 /\ count_runs new = 0 /\ count_sleeps new = 0
    /\ count_draws new = 0 /\ count_identity_checks new = 0.
Proof.
  intros w c ci tr.
  unfold Legacy.getEC2InstanceID, describeContainerInstances, bind, ret.
  cbn. split_answers; cbn;
    eexists; (split; [rewrite <- ?app_assoc; reflexivity|]);
    cbn; repeat split.
Qed.

Lemma getContainerID_trace : forall w c t n tr,
  exists new, snd (getContainerID w c t n tr) = tr ++ new
    /\ count_attempts new = 0 /\ count_runs new = 0 /\ count_sleeps new = 0
    /\ count_draws new = 0 /\ count_identity_checks new = 0.
Proof.
  intros w c t n tr. unfold_calls. cbn.
  split_answers; cbn;
    eexists; (split; [rewrite <- ?app_assoc; reflexivity|]);
    cbn; repeat split.
Qed.

Lemma Legacy_startSSMSession_frame : forall w i ci p rg tr,
  let ok := w_run w (length tr) (Legacy.ssmCmd i ci p rg) in
  Legacy.startSSMSession w i ci p rg tr
  = (if ok then Ok tt else Error ErrRun,
     tr ++ [ERun (Legacy.ssmCmd i ci p rg) ok]).
Proof. reflexivity. Qed.

Ltac legacy_step :=
  match goal with
  | |- context [Legacy.startSSMSession ?w ?i ?ci ?p ?rg ?tr] =>
      rewrite (Legacy_startSSMSession_frame w i ci p rg tr);
      destruct (w_run w _ _)
  | |- context [Legacy.getECSTask ?w ?c ?s ?tr] =>
      let H := fresh "T" in
      pose proof (Legacy_getECSTask_trace w c s tr) as (? & H & ?&?&?&?&?);
      destruct (Legacy.getECSTask w c s tr) as [[[? ?]|?] ?];
      cbn [snd] in H; subst
  | |- context [Legacy.getEC2InstanceID ?w ?c ?ci ?tr] =>
      let H := fresh "T" in
      pose proof (Legacy_getEC2InstanceID_trace w c ci tr)
        as (? & H & ?&?&?&?&?);
      destruct (Legacy.getEC2InstanceID w c ci tr) as [[?|?] ?];
      cbn [snd] in H; subst
  | |- context [getContainerID ?w ?c ?t ?n ?tr] =>
      let H := fresh "T" in
      pose proof (getContainerID_trace w c t n tr) as (? & H & ?&?&?&?&?);
      destruct (getContainerID w c t n tr) as [[?|?] ?];
      cbn [snd] in H; subst
  end.

(** The earlier [main] of part_000 resolves once: whatever the answers,
    it lists tasks at most once, launches at most one session, never
    sleeps, never draws a random number and never calls STS; it exits 0
    exactly when its session launch succeeded. *)
Theorem Legacy_main_single_pass : forall w fl tr,
  exists new, snd (Legacy.main w fl tr) = tr ++ new
    /\ count_attempts new <= 1
    /\ count_runs new <= 1
    /\ count_sleeps new = 0
    /\ count_draws new = 0
    /\ count_identity_checks new = 0
    /\ (fst (Legacy.main w fl tr) = Legacy.OldExit0 <-> launched new = true).
Proof.
  intros w fl tr. unfold Legacy.main.
  destruct (String.eqb (serviceName fl) "" || String.eqb (containerName fl) "").
  { exists []. split; [symmetry; apply app_nil_r|]. cbn.
    repeat split; try lia; intros H; discriminate H. }
  unfold bind, loadConfig, ret. cbv beta iota zeta.
  destruct (w_loadConfig w _ _ _); cbn [negb].
  2: { eexists. split; [reflexivity|]. cbn.
       repeat split; try lia; intros H; discriminate H. }
  unfold bind, ret.
  repeat legacy_step; cbv beta iota zeta; cbn [fst snd];
    repeat match goal with |- context [if ?b then _ else _] => destruct b end;
    cbn [fst snd].
  all: eexists; (split; [rewrite <- ?app_assoc; reflexivity|]).
  all: repeat match goal with H : ?x = 0 |- context [?x] => rewrite H end.
  all: count_new;
       repeat match goal with H : ?x = 0 |- context [?x] => rewrite H end.
  all: cbn [Nat.add].
  all: (split; [lia|]); (split; [lia|]);
       (split; [reflexivity|]); (split; [reflexivity|]);
       (split; [reflexivity|]).
  all: rewrite ?launched_app;
       repeat match goal with
       | H : count_runs ?l = 0 |- context [launched ?l] =>
           rewrite (launched_runs l H)
       end;
       repeat match goal with |- context [if ?b then _ else _] => destruct b end;
       cbn [launched orb].
  all: split; intros Hx; first [reflexivity | discriminate Hx].
Qed.

(** The earlier task resolver takes the first listed ARN
    ([result.TaskArns[0]]), without a random draw, and describes it. *)
Theorem Legacy_getECSTask_first : forall w c s tr a l t ts,
  w_listTasks w (length tr) c s = Some (a :: l) ->
  w_describeTasks w (S (length tr)) c [a] = Some (t :: ts) ->
  Legacy.getECSTask w c s tr
  = (Ok (a, tContainerInstanceArn t),
     tr ++ [EListTasks c s (Some (a :: l));
            EDescribeTasks c [a] (Some (t :: ts))]).
Proof.
  intros w c s tr a l t ts Hl Hd.
  unfold Legacy.getECSTask, listTasks, describeTasks, bind, ret.
  cbv beta iota zeta. rewrite Hl. rewrite length_snoc, Hd.
  rewrite <- app_assoc. reflexivity.
Qed.

(** The earlier host resolver takes the first described instance
    ([result.ContainerInstances[0]]), without a random draw. *)
Theorem Legacy_getEC2InstanceID_first : forall w c ci tr x l,
  w_describeContainerInstances w (length tr) c [ci] = Some (x :: l) ->
  Legacy.getEC2InstanceID w c ci tr
  = (Ok (ciEc2InstanceId x),
     tr ++ [EDescribeContainerInstances c [ci] (Some (x :: l))]).
Proof.
  intros w c ci tr x l H.
  unfold Legacy.getEC2InstanceID, describeContainerInstances, bind, ret.
  cbv beta iota zeta. rewrite H. reflexivity.
Qed.

(** With a single running task, the random pick of [main.go] selects the
    same task as the first-ARN pick of part_000: when DescribeTasks
    answers that task alike at the two call positions, both resolvers
    return the same result. *)
Theorem single_task_pick_agrees : forall w c s tr a,
  w_listTasks w (length tr) c s = Some [a] ->
  w_describeTasks w (S (S (length tr))) c [a]
  = w_describeTasks w (S (length tr)) c [a] ->
  fst (getECSTask w c s tr) = fst (Legacy.getECSTask w c s tr).
Proof.
  intros w c s tr a Hl Hd.
  rewrite (getECSTask_nonempty w c s tr a [] Hl). cbv zeta.
  assert (Hk : w_intn w (S (length tr)) (length [a]) < 1)
    by (apply w_intn_lt; cbn; lia).
  destruct (w_intn w (S (length tr)) (length [a])) as [|k]; [|lia].
  cbn [nth fst]. rewrite Hd.
  unfold Legacy.getECSTask, listTasks, describeTasks, bind, ret.
  cbv beta iota zeta. rewrite Hl, length_snoc.
  destruct (w_describeTasks w (S (length tr)) c [a]) as [[|t ts]|];
    reflexivity.
Qed.

(** ** Witnesses for the further properties *)

Lemma main_usage_no_calls_witness :
  (serviceName (mkFlags "prod" "" "app" "") = ""
   \/ containerName (mkFlags "prod" "" "app" "") = "")
  /\ main (example_world true) (mkFlags "prod" "" "app" "") []
     = (Fatal FUsage, []).
Proof.
  split; [left; reflexivity|].
  apply main_usage_no_calls. left; reflexivity.
Defined.

Lemma main_load_config_first_witness :
  let w := const_world false true (Some ["T1"]) (Some [example_task])
             (Some [mkContainerInstance "I1"]) true in
  let fl := mkFlags "prod" "web" "app" "dev" in
  serviceName fl <> "" /\ containerName fl <> ""
  /\ w_loadConfig w 0 (Some "dev") region = false
  /\ main w fl [] = (Fatal FLoadConfig, [ELoadConfig (Some "dev") region false]).
Proof.
  intros w fl.
  assert (Hs : serviceName fl <> "") by discriminate.
  assert (Hc : containerName fl <> "") by discriminate.
  split; [exact Hs|]. split; [exact Hc|]. split; [reflexivity|].
  exact (proj2 (main_load_config_first w fl [] Hs Hc) eq_refl).
Defined.

Lemma main_auth_failure_witness :
  let w := const_world true false (Some ["T1"]) (Some [example_task])
             (Some [mkContainerInstance "I1"]) true in
  let fl := example_flags "app" in
  serviceName fl <> "" /\ containerName fl <> ""
  /\ w_loadConfig w 0 None region = true
  /\ w_getCallerIdentity w 1 = false
  /\ main w fl []
     = (Fatal FAuth, [ELoadConfig None region true; EGetCallerIdentity false]).
Proof.
  intros w fl.
  assert (Hs : serviceName fl <> "") by discriminate.
  assert (Hc : containerName fl <> "") by discriminate.
  split; [exact Hs|]. split; [exact Hc|].
  split; [reflexivity|]. split; [reflexivity|].
  exact (main_auth_failure w fl [] Hs Hc eq_refl eq_refl).
Defined.

Lemma getEC2InstanceID_random_instance_witness :
  w_describeContainerInstances (example_world true) 0 "prod" ["H1"]
    = Some [mkContainerInstance "I1"]
  /\ fst (getEC2InstanceID (example_world true) "prod" "H1" []) = Ok "I1".
Proof.
  split; [reflexivity|].
  destruct (getEC2InstanceID_random_instance (example_world true) "prod" "H1"
              [] [mkContainerInstance "I1"] eq_refl ltac:(discriminate))
    as (_ & _ & H).
  exact (H _ eq_refl).
Defined.

Lemma attempt_success_calls_witness :
  fst (attempt (example_world true) (example_flags "app") 0 []) = ASuccess
  /\ exists arns k1 t1 ts1 insts k2 t2 ts2 rid,
    let arn := nth k1 arns "" in
    let inst := ciEc2InstanceId (nth k2 insts (mkContainerInstance "")) in
    find_container (containerName (example_flags "app")) (tContainers t2)
      = Some rid
    /\ snd (attempt (example_world true) (example_flags "app") 0 [])
       = [] ++ [EListTasks "prod" "web" (Some arns);
                ERandIntn (length arns) k1;
                EDescribeTasks "prod" [arn] (Some (t1 :: ts1));
                EDescribeContainerInstances "prod"
                  [tContainerInstanceArn t1] (Some insts);
                ERandIntn (length insts) k2;
                EDescribeTasks "prod" [arn] (Some (t2 :: ts2));
                ERun (ssmCmd inst rid (Some "") region) true].
Proof.
  assert (H : fst (attempt (example_world true) (example_flags "app") 0 [])
              = ASuccess) by reflexivity.
  split; [exact H|].
  exact (attempt_success_calls (example_world true) (example_flags "app") 0 []
           H).
Defined.

Lemma ssmCmd_injective_witness :
  ssmCmd "I1" "rt-123" (Some "") region = ssmCmd "I1" "rt-123" (Some "") region
  /\ "I1" = "I1" /\ "rt-123" = "rt-123" /\ Some "" = Some ""
  /\ region = region.
Proof.
  split; [reflexivity|].
  exact (ssmCmd_injective "I1" "rt-123" (Some "") region
           "I1" "rt-123" (Some "") region eq_refl).
Defined.

Lemma Legacy_ssmCmd_injective_witness :
  Legacy.ssmCmd "I1" "rt-123" (Some "") region
    = Legacy.ssmCmd "I1" "rt-123" (Some "") region
  /\ "I1" = "I1" /\ "rt-123" = "rt-123" /\ Some "" = Some ""
  /\ region = region.
Proof.
  split; [reflexivity|].
  exact (Legacy_ssmCmd_injective "I1" "rt-123" (Some "") region
           "I1" "rt-123" (Some "") region eq_refl).
Defined.

Lemma Legacy_getECSTask_first_witness :
  w_listTasks (example_world true) 0 "prod" "web" = Some ["T1"]
  /\ w_describeTasks (example_world true) 1 "prod" ["T1"] = Some [example_task]
  /\ Legacy.getECSTask (example_world true) "prod" "web" []
     = (Ok ("T1", "H1"),
        [] ++ [EListTasks "prod" "web" (Some ["T1"]);
               EDescribeTasks "prod" ["T1"] (Some [example_task])]).
Proof.
  split; [reflexivity|]. split; [reflexivity|].
  exact (Legacy_getECSTask_first (example_world true) "prod" "web" [] "T1" []
           example_task [] eq_refl eq_refl).
Defined.

Lemma Legacy_getEC2InstanceID_first_witness :
  w_describeContainerInstances (example_world true) 0 "prod" ["H1"]
    = Some [mkContainerInstance "I1"]
  /\ Legacy.getEC2InstanceID (example_world true) "prod" "H1" []
     = (Ok "I1", [] ++ [EDescribeContainerInstances "prod" ["H1"]
                          (Some [mkContainerInstance "I1"])]).
Proof.
  split; [reflexivity|].
  exact (Legacy_getEC2InstanceID_first (example_world true) "prod" "H1" []
           (mkContainerInstance "I1") [] eq_refl).
Defined.

Lemma single_task_pick_agrees_witness :
  w_listTasks (example_world true) 0 "prod" "web" = Some ["T1"]
  /\ fst (getECSTask (example_world true) "prod" "web" [])
     = fst (Legacy.getECSTask (example_world true) "prod" "web" []).
Proof.
  split; [reflexivity|].
  exact (single_task_pick_agrees (example_world true) "prod" "web" [] "T1"
           eq_refl eq_refl).
Defined.
